(** * Html5QrcodePlugin: a React adapter around the html5-qrcode scanner

    Shallow embedding of [src/assets/html5-qrcode.jsx].  The component
    destructures its props, registers one effect with an empty
    dependency array and returns a [div] element.  The effect builds the
    scan configuration, checks the success callback, constructs the
    scanner, starts it and returns a cleanup closure that clears it.

    JavaScript values are a small inductive type, objects used as
    records (props, the configuration literal, the element's props) are
    finite maps from property names to values, and the effectful parts
    (the scanner library, the console, thrown values, the microtask
    queue) are threaded through a state-and-exception monad. *)

From Stdlib Require Import ZArith String List Bool Lia.
From Stdlib Require Import Floats.SpecFloat.
From stdpp Require Import base option gmap strings list fin_maps.

Local Open Scope string_scope.
Local Open Scope list_scope.

(** ** JavaScript values *)

Module JS.

(** Heap addresses of objects and functions: the component never reads
    a property of an object it is handed (a [qrbox] dimension record, a
    callback), it only passes the reference on. *)
Definition addr := nat.

Inductive value : Type :=
| VUndefined
| VNull
| VBool (b : bool)
| VNum (x : spec_float)
| VBigInt (z : Z)
| VStr (s : string)
| VSymbol (a : addr)
| VObject (a : addr)
| VFunction (a : addr).

(** The IEEE-754 double nearest to an integer literal. *)
Definition number (z : Z) : value := VNum (binary_normalize 53 1024 z 0 false).

(** [ToBoolean]: the falsy values are [undefined], [null], [false],
    both zeros, [NaN], [0n] and the empty string. *)
Definition to_boolean (v : value) : bool :=
  match v with
  | VUndefined | VNull => false
  | VBool b => b
  | VNum (S754_zero _) | VNum S754_nan => false
  | VNum _ => true
  | VBigInt z => negb (Z.eqb z 0)
  | VStr s => negb (String.eqb s "")
  | VSymbol _ | VObject _ | VFunction _ => true
  end.

(** [a === b]: no coercion, [NaN] differs from itself, the two zeros
    are equal, objects compare by reference. *)
Definition strict_equals (a b : value) : bool :=
  match a, b with
  | VUndefined, VUndefined => true
  | VNull, VNull => true
  | VBool x, VBool y => Bool.eqb x y
  | VNum x, VNum y => SFeqb x y
  | VBigInt x, VBigInt y => Z.eqb x y
  | VStr x, VStr y => String.eqb x y
  | VSymbol x, VSymbol y => Nat.eqb x y
  | VObject x, VObject y => Nat.eqb x y
  | VFunction x, VFunction y => Nat.eqb x y
  | _, _ => false
  end.

(** [Object.is], the comparison React applies to dependency arrays:
    [NaN] is itself and the two zeros differ. *)
Definition object_is (a b : value) : bool :=
  match a, b with
  | VNum S754_nan, VNum S754_nan => true
  | VNum (S754_zero s), VNum (S754_zero t) => Bool.eqb s t
  | _, _ => strict_equals a b
  end.

(** An object used as a record: its own enumerable string-keyed
    properties.  A key bound to [VUndefined] is present, which differs
    from a key that is not there. *)
Abbreviation object := (gmap string value).

(** Property read [o.k]: a missing property reads as [undefined]. *)
Definition get (o : object) (k : string) : value :=
  default VUndefined (o !! k).

(** A destructuring binding with an initialiser, [{ k = d } = o]: the
    initialiser is used when the property reads as [undefined]. *)
Definition binding (o : object) (k : string) (d : value) : value :=
  match get o k with
  | VUndefined => d
  | v => v
  end.

(** The rest element of an object pattern, [{ k1, ..., kn, ...rest } = o]:
    the own properties of [o] whose key is none of the named ones. *)
Definition rest_of (o : object) (named : list string) : object :=
  foldr delete o named.

(** Object spread inside a literal, [{ ...before, ...src }]: the
    properties of [src] are copied over the ones written before it. *)
Definition spread (before src : object) : object := src ∪ before.

(** An object literal [{ k1: v1, ..., kn: vn }]; later entries win. *)
Definition literal (fields : list (string * value)) : object :=
  foldl (fun o kv => <[kv.1 := kv.2]> o) ∅ fields.

(** A promise, seen through the one thing its holder can observe: how it
    eventually settles. *)
Inductive settlement : Type :=
| NeverSettles
| Fulfills (v : value)
| Rejects (reason : value).

End JS.
Import JS.

(** ** The host: scanner library, console, exceptions, microtasks

    The scanner library is a collaborator outside the file.  The
    component uses three entry points of it and wraps none of them in a
    handler: the constructor and [render] are taken to return, and
    [clear] to return a promise; how that promise settles is left to the
    library and is a parameter of the world. *)

Module Host.

(** What the program does to its surroundings, in order. *)
Inductive event : Type :=
| NewScanner (h : addr) (elementId : string) (config : object) (verbose : bool)
| ScannerRender (h : addr) (onSuccess onError : value)
| ScannerClear (h : addr)
| ConsoleError (args : list value).

(** A rejection handler attached to a promise.  The handlers of this
    program only write to the console, so a handler is the output it
    produces for a given rejection reason. *)
Definition handler : Type := value -> list event.

Record reaction : Type := Reaction {
  rx_promise : settlement;
  rx_onRejected : handler
}.

Record world : Type := World {
  w_next : addr;                    (* next free heap address *)
  w_clear : addr -> settlement;     (* how the library settles [clear()] of a scanner *)
  w_trace : list event;             (* events so far, oldest first *)
  w_jobs : list reaction            (* promise reactions not yet run *)
}.

(** A statement either completes normally or throws a value. *)
Inductive completion (A : Type) : Type :=
| Normal (a : A)
| Throw (v : value).
Arguments Normal {A} a.
Arguments Throw {A} v.

Definition M (A : Type) : Type := world -> completion A * world.

#[global] Instance M_ret : MRet M := fun A a w => (Normal a, w).

#[global] Instance M_bind : MBind M := fun A B f m w =>
  match m w with
  | (Normal a, w') => f a w'
  | (Throw v, w') => (Throw v, w')
  end.

Definition throw {A : Type} (v : value) : M A := fun w => (Throw v, w).

Definition emit (e : event) : M unit := fun w =>
  (Normal tt, World (w_next w) (w_clear w) (w_trace w ++ [e]) (w_jobs w)).

Definition fresh : M addr := fun w =>
  (Normal (w_next w), World (S (w_next w)) (w_clear w) (w_trace w) (w_jobs w)).

(** [new Html5QrcodeScanner(elementId, config, verbose)]. *)
Definition new_Html5QrcodeScanner (elementId : string) (config : object)
    (verbose : bool) : M addr :=
  h ← fresh; emit (NewScanner h elementId config verbose);; mret h.

(** [scanner.render(onSuccess, onError)]. *)
Definition scanner_render (h : addr) (onSuccess onError : value) : M unit :=
  emit (ScannerRender h onSuccess onError).

(** [scanner.clear()]: returns a promise, settled by the library. *)
Definition scanner_clear (h : addr) : M settlement := fun w =>
  (emit (ScannerClear h);; mret (w_clear w h)) w.

(** [console.error(...args)], as the output of a handler. *)
Definition console_error (args : list value) : list event := [ConsoleError args].

(** [promise.catch(onRejected)]: registers the handler; the promise it
    returns is dropped by the caller. *)
Definition promise_catch (p : settlement) (onRejected : handler) : M unit := fun w =>
  (Normal tt,
   World (w_next w) (w_clear w) (w_trace w) (w_jobs w ++ [Reaction p onRejected])).

Definition run_reaction (r : reaction) : list event :=
  match rx_promise r with
  | Rejects reason => rx_onRejected r reason
  | Fulfills _ | NeverSettles => []
  end.

(** A reaction stays registered for as long as its promise has not
    settled. *)
Definition pending (r : reaction) : bool :=
  match rx_promise r with
  | NeverSettles => true
  | Fulfills _ | Rejects _ => false
  end.

(** The microtask checkpoint: every registered reaction whose promise
    rejects runs its handler, in registration order; the reactions of
    settled promises are consumed, those of promises that never settle
    stay registered. *)
Definition run_microtasks (w : world) : world :=
  World (w_next w) (w_clear w)
        (w_trace w ++ concat (map run_reaction (w_jobs w)))
        (List.filter pending (w_jobs w)).

(** A world in which nothing has happened yet. *)
Definition initial (next : addr) (clear : addr -> settlement) : world :=
  World next clear [] [].

End Host.
Import Host.

(** ** React: one function component with one effect *)

Module React.

Record element : Type := Element {
  el_type : string;
  el_props : object
}.

(** [<tag {...props} />]. *)
Definition jsx (tag : string) (props : object) : element := Element tag props.

Definition cleanup : Type := M unit.

(** What one call of the component function yields: the element it
    returns and the [useEffect(effect, deps)] it registered.  [hk_deps]
    is [None] when no dependency array is given. *)
Record rendered : Type := Rendered {
  hk_effect : M cleanup;
  hk_deps : option (list value);
  rd_element : element
}.

Definition component : Type := object -> rendered.

(** The instance as React keeps it between renders.  When its effect
    throws, React removes the instance: nothing of it stays on the page
    and only the thrown value is remembered. *)
Record fiber : Type := Fiber {
  fb_element : option element;    (* what is on the page; [None] once removed *)
  fb_deps : option (list value);
  fb_cleanup : option cleanup;
  fb_error : option value         (* the value thrown out of the effect *)
}.

Fixpoint all_is (prev next : list value) : bool :=
  match prev, next with
  | p :: ps, n :: ns => object_is p n && all_is ps ns
  | _, _ => true
  end.

(** The effect is skipped on a re-render when both renders gave a
    dependency array and the entries are pairwise [Object.is]-equal. *)
Definition same_deps (prev next : option (list value)) : bool :=
  match prev, next with
  | Some p, Some n => all_is p n
  | _, _ => false
  end.

Definition run_effect (r : rendered) (w : world) : fiber * world :=
  match hk_effect r w with
  | (Normal c, w') => (Fiber (Some (rd_element r)) (hk_deps r) (Some c) None, w')
  | (Throw v, w') => (Fiber None None None (Some v), w')
  end.

(** First render and commit: the effect runs. *)
Definition mount (C : component) (props : object) (w : world) : fiber * world :=
  run_effect (C props) w.

(** The unmount routine: the cleanup of the last effect run, if that
    effect returned one. *)
Definition unmount (fb : fiber) : M unit :=
  match fb_cleanup fb with
  | Some c => c
  | None => mret tt
  end.

(** A render with new props.  On a live instance the component
    function is called again and the effect re-runs (after the previous
    cleanup) only if the dependencies changed.  An instance whose
    effect threw was removed, so the render is a first render: the
    effect runs. *)
Definition update (C : component) (fb : fiber) (props : object) (w : world)
    : fiber * world :=
  let r := C props in
  match fb_error fb with
  | Some _ => run_effect r w
  | None =>
      if same_deps (fb_deps fb) (hk_deps r) then
        (Fiber (Some (rd_element r)) (hk_deps r) (fb_cleanup fb) None, w)
      else
        run_effect r (unmount fb w).2
  end.

Definition updates (C : component) (fb : fiber) (ps : list object) (w : world)
    : fiber * world :=
  foldl (fun st p => update C st.1 p st.2) (fb, w) ps.

(** A whole mount: first render with [props], renders with each of
    [later], unmount, then the microtask checkpoint.  The result is the
    completion of the unmount routine and the final world. *)
Definition lifetime (C : component) (props : object) (later : list object)
    (w : world) : completion unit * world :=
  let '(fb, w1) := mount C props w in
  let '(fb', w2) := updates C fb later w1 in
  let '(r, w3) := unmount fb' w2 in
  (r, run_microtasks w3).

End React.
Import React.

(** ** The component *)

Definition qrcodeRegionId : string := "html5qr-code-full-region".

(** The seven properties named in the destructuring pattern. *)
Definition named_props : list string :=
  ["fps"; "qrbox"; "aspectRatio"; "disableFlip"; "verbose";
   "qrCodeSuccessCallback"; "qrCodeErrorCallback"].

Definition required_message : string := "qrCodeSuccessCallback is required callback.".

Definition clear_failed_message : string := "Failed to clear html5QrcodeScanner. ".

Definition Html5QrcodePlugin : component := fun props =>
  let fps := binding props "fps" VUndefined in
  let qrbox := binding props "qrbox" VUndefined in
  let aspectRatio := binding props "aspectRatio" VUndefined in
  let disableFlip := binding props "disableFlip" VUndefined in
  let verbose := binding props "verbose" VUndefined in
  let qrCodeSuccessCallback := binding props "qrCodeSuccessCallback" VUndefined in
  let qrCodeErrorCallback := binding props "qrCodeErrorCallback" VUndefined in
  let rest := rest_of props named_props in
  Rendered
    (let config := literal [("fps", fps); ("qrbox", qrbox);
                            ("aspectRatio", aspectRatio);
                            ("disableFlip", disableFlip)] in
     if negb (to_boolean qrCodeSuccessCallback) then
       throw (VStr required_message)
     else
       html5QrcodeScanner ←
         new_Html5QrcodeScanner qrcodeRegionId config
                                (strict_equals verbose (VBool true));
       scanner_render html5QrcodeScanner qrCodeSuccessCallback qrCodeErrorCallback;;
       mret (p ← scanner_clear html5QrcodeScanner;
             promise_catch p
               (fun error => console_error [VStr clear_failed_message; error])))
    (Some [])
    (jsx "div" (spread (literal [("id", VStr qrcodeRegionId)]) rest)).

Definition scenario (cb : addr) : object :=
  literal [("fps", number 10); ("qrbox", number 250);
           ("qrCodeSuccessCallback", VFunction cb)].

(** ** Observations on a run *)

(** The four configuration fields of the scanner. *)
Definition scan_fields : list string := ["fps"; "qrbox"; "aspectRatio"; "disableFlip"].

(** Scanner constructions in a trace, with their arguments. *)
Definition constructed (t : list event) : list (addr * string * object * bool) :=
  omap (fun e => match e with
                 | NewScanner h i c v => Some (h, i, c, v)
                 | _ => None
                 end) t.

(** Scanner starts in a trace: handle, success and error callback. *)
Definition started (t : list event) : list (addr * value * value) :=
  omap (fun e => match e with
                 | ScannerRender h s f => Some (h, s, f)
                 | _ => None
                 end) t.

(** Handles on which a release was attempted. *)
Definition released (t : list event) : list addr :=
  omap (fun e => match e with ScannerClear h => Some h | _ => None end) t.

(** Arguments of the [console.error] calls. *)
Definition logged (t : list event) : list (list value) :=
  omap (fun e => match e with ConsoleError a => Some a | _ => None end) t.

(** The configuration literal of the effect, in terms of the props. *)
Definition config_of (props : object) : object :=
  literal [("fps", get props "fps"); ("qrbox", get props "qrbox");
           ("aspectRatio", get props "aspectRatio");
           ("disableFlip", get props "disableFlip")].

(** The rejection handler of the cleanup closure. *)
Definition log_clear_failure : handler :=
  fun error => console_error [VStr clear_failed_message; error].

(** The cleanup closure the effect returns for the scanner [h]. *)
Definition release (h : addr) : cleanup :=
  p ← scanner_clear h; promise_catch p log_clear_failure.

(** The element the component returns. *)
Definition container (props : object) : element :=
  rd_element (Html5QrcodePlugin props).

(** A mount whose success callback passes the effect's check. *)
Definition valid (props : object) : Prop :=
  to_boolean (get props "qrCodeSuccessCallback") = true.

(** The reading of "a field the caller did not supply is omitted from
    the configuration": for the configuration [cfg] handed to the
    constructor at mount, a scan field missing from the props is missing
    from [cfg]. *)
Definition omits_unsupplied (props : object) : Prop :=
  forall next clear h i cfg v k,
    constructed (w_trace (mount Html5QrcodePlugin props (initial next clear)).2)
      = [(h, i, cfg, v)] ->
    k ∈ scan_fields -> props !! k = None -> cfg !! k = None.

(** The reading of "the container carries the fixed region identifier
    whatever the passthrough props are". *)
Definition carries_region_id (props : object) : Prop :=
  el_props (container props) !! "id" = Some (VStr qrcodeRegionId).

(** ** Facts about the JavaScript primitives *)

Lemma binding_undefined (o : object) (k : string) :
  binding o k VUndefined = get o k.
Proof. unfold binding. destruct (get o k); reflexivity. Qed.

Lemma get_lookup_Some (o : object) (k : string) (v : value) :
  o !! k = Some v -> get o k = v.
Proof. intros E. unfold get. rewrite E. reflexivity. Qed.

Lemma get_lookup_None (o : object) (k : string) :
  o !! k = None -> get o k = VUndefined.
Proof. intros E. unfold get. rewrite E. reflexivity. Qed.

Lemma rest_of_lookup (o : object) (named : list string) (k : string) :
  rest_of o named !! k = if decide (k ∈ named) then None else o !! k.
Proof.
  unfold rest_of. induction named as [|n named IH]; cbn [foldr].
  - rewrite decide_False by apply not_elem_of_nil. reflexivity.
  - destruct (decide (n = k)) as [->|Hne].
    + rewrite lookup_delete_eq, decide_True by constructor. reflexivity.
    + rewrite lookup_delete_ne, IH by exact Hne.
      destruct (decide (k ∈ named)) as [Hin|Hout].
      * rewrite decide_True by (constructor; exact Hin). reflexivity.
      * rewrite decide_False; [reflexivity|].
        intros Hin. apply elem_of_cons in Hin as [->|Hin]; congruence.
Qed.

Lemma rest_of_delete_named (o : object) (named : list string) (k : string) :
  k ∈ named -> rest_of (delete k o) named = rest_of o named.
Proof.
  intros Hk. apply map_eq. intros j. rewrite !rest_of_lookup.
  destruct (decide (j ∈ named)) as [Hj|Hj]; [reflexivity|].
  apply lookup_delete_ne. intros ->. contradiction.
Qed.

Lemma get_delete_ne (o : object) (j k : string) :
  j <> k -> get (delete j o) k = get o k.
Proof. intros Hne. unfold get. rewrite lookup_delete_ne by exact Hne. reflexivity. Qed.

Lemma strict_equals_true (v : value) :
  strict_equals v (VBool true) = true <-> v = VBool true.
Proof.
  split.
  - destruct v as [| |[|]| | | | | |]; simpl; intros E; congruence.
  - intros ->. reflexivity.
Qed.

Lemma config_of_lookup (props : object) (k : string) :
  config_of props !! k = if decide (k ∈ scan_fields) then Some (get props k) else None.
Proof.
  unfold config_of, literal, scan_fields; cbn [foldl fst snd].
  destruct (decide (k = "disableFlip")) as [->|H1]; [reflexivity|].
  rewrite lookup_insert_ne by congruence.
  destruct (decide (k = "aspectRatio")) as [->|H2]; [reflexivity|].
  rewrite lookup_insert_ne by congruence.
  destruct (decide (k = "qrbox")) as [->|H3]; [reflexivity|].
  rewrite lookup_insert_ne by congruence.
  destruct (decide (k = "fps")) as [->|H4]; [reflexivity|].
  rewrite lookup_insert_ne by congruence.
  rewrite lookup_empty, decide_False; [reflexivity|].
  rewrite !elem_of_cons, elem_of_nil. tauto.
Qed.

(** ** Runs on concrete props *)

Example run_scenario_release_rejected :
  lifetime Html5QrcodePlugin (scenario 7) [] (initial 0 (fun _ => Rejects (VStr "busy")))
  = (Normal tt,
     World 1 (fun _ => Rejects (VStr "busy"))
       [NewScanner 0 "html5qr-code-full-region"
          (literal [("fps", number 10); ("qrbox", number 250);
                    ("aspectRatio", VUndefined); ("disableFlip", VUndefined)])
          false;
        ScannerRender 0 (VFunction 7) VUndefined;
        ScannerClear 0;
        ConsoleError [VStr "Failed to clear html5QrcodeScanner. "; VStr "busy"]]
       []).
Proof. reflexivity. Qed.

Example run_without_callback :
  mount Html5QrcodePlugin (literal [("fps", number 10); ("className", VStr "cam")])
        (initial 0 (fun _ => NeverSettles))
  = (Fiber None None None
           (Some (VStr "qrCodeSuccessCallback is required callback.")),
     initial 0 (fun _ => NeverSettles)).
Proof. reflexivity. Qed.

Example run_render_after_failed_mount :
  let m := mount Html5QrcodePlugin (literal [("fps", number 10)])
                 (initial 0 (fun _ => NeverSettles)) in
  constructed (w_trace (update Html5QrcodePlugin m.1 (scenario 7) m.2).2)
  = [(0, "html5qr-code-full-region", config_of (scenario 7), false)].
Proof. reflexivity. Qed.

Example run_release_never_settles :
  w_jobs (lifetime Html5QrcodePlugin (scenario 7) []
            (initial 0 (fun _ => NeverSettles))).2
  = [Reaction NeverSettles log_clear_failure].
Proof. reflexivity. Qed.

Example run_verbose_true :
  constructed
    (w_trace (mount Html5QrcodePlugin (<["verbose" := VBool true]> (scenario 7))
                (initial 4 (fun _ => NeverSettles))).2)
  = [(4, "html5qr-code-full-region", config_of (scenario 7), true)].
Proof. reflexivity. Qed.

(** ** The effect, the cleanup and the lifecycle *)

Ltac run_M :=
  cbv [mbind M_bind mret M_ret new_Html5QrcodeScanner scanner_render
       scanner_clear promise_catch fresh emit throw
       w_next w_clear w_trace w_jobs].

Lemma effect_valid (props : object) (w : world) :
  to_boolean (get props "qrCodeSuccessCallback") = true ->
  hk_effect (Html5QrcodePlugin props) w =
    (Normal (release (w_next w)),
     World (S (w_next w)) (w_clear w)
       (w_trace w ++
        [NewScanner (w_next w) qrcodeRegionId (config_of props)
                    (strict_equals (get props "verbose") (VBool true));
         ScannerRender (w_next w) (get props "qrCodeSuccessCallback")
                       (get props "qrCodeErrorCallback")])
       (w_jobs w)).
Proof.
  intros Hcb. unfold Html5QrcodePlugin. cbn [hk_effect].
  rewrite !binding_undefined, Hcb. cbn [negb].
  run_M. rewrite <- app_assoc. reflexivity.
Qed.

Lemma effect_invalid (props : object) (w : world) :
  to_boolean (get props "qrCodeSuccessCallback") = false ->
  hk_effect (Html5QrcodePlugin props) w = (Throw (VStr required_message), w).
Proof.
  intros Hcb. unfold Html5QrcodePlugin. cbn [hk_effect].
  rewrite !binding_undefined, Hcb. reflexivity.
Qed.

Lemma release_run (h : addr) (w : world) :
  release h w =
    (Normal tt,
     World (w_next w) (w_clear w) (w_trace w ++ [ScannerClear h])
       (w_jobs w ++
        [Reaction (w_clear w h) log_clear_failure])).
Proof. reflexivity. Qed.

Lemma mount_valid (props : object) (w : world) :
  to_boolean (get props "qrCodeSuccessCallback") = true ->
  mount Html5QrcodePlugin props w =
    (Fiber (Some (container props)) (Some []) (Some (release (w_next w))) None,
     World (S (w_next w)) (w_clear w)
       (w_trace w ++
        [NewScanner (w_next w) qrcodeRegionId (config_of props)
                    (strict_equals (get props "verbose") (VBool true));
         ScannerRender (w_next w) (get props "qrCodeSuccessCallback")
                       (get props "qrCodeErrorCallback")])
       (w_jobs w)).
Proof.
  intros Hcb. unfold mount, run_effect. rewrite effect_valid by exact Hcb.
  reflexivity.
Qed.

Lemma mount_invalid (props : object) (w : world) :
  to_boolean (get props "qrCodeSuccessCallback") = false ->
  mount Html5QrcodePlugin props w =
    (Fiber None None None (Some (VStr required_message)), w).
Proof.
  intros Hcb. unfold mount, run_effect. rewrite effect_invalid by exact Hcb.
  reflexivity.
Qed.

(** A re-render of a live instance never re-runs the effect: the
    dependency array is the empty array at every render. *)
Lemma update_skips_effect (fb : fiber) (props : object) (w : world) :
  fb_deps fb = Some [] ->
  fb_error fb = None ->
  update Html5QrcodePlugin fb props w =
    (Fiber (Some (container props)) (Some []) (fb_cleanup fb) None, w).
Proof.
  intros Hd He. unfold update. rewrite Hd, He. reflexivity.
Qed.

Lemma updates_skip_effect (later : list object) (fb : fiber) (w : world) :
  fb_deps fb = Some [] ->
  fb_error fb = None ->
  exists el,
    updates Html5QrcodePlugin fb later w =
      (Fiber el (Some []) (fb_cleanup fb) None, w).
Proof.
  revert fb. unfold updates.
  induction later as [|p later IH]; intros fb Hd He; cbn [foldl fst snd].
  - exists (fb_element fb). destruct fb; cbn in *; subst; reflexivity.
  - rewrite update_skips_effect by assumption.
    destruct (IH (Fiber (Some (container p)) (Some []) (fb_cleanup fb) None)
                 eq_refl eq_refl)
      as [el Hel].
    exists el. exact Hel.
Qed.


(** The whole life of a mount whose callback passes the check: the
    scanner is made and started at mount, nothing happens at the
    re-renders, the scanner is cleared at unmount, and the checkpoint
    logs if the clearing promise rejects. *)
Lemma lifetime_valid (props : object) (later : list object) (next : addr)
    (clear : addr -> settlement) :
  valid props ->
  lifetime Html5QrcodePlugin props later (initial next clear) =
    (Normal tt,
     World (S next) clear
       ([NewScanner next qrcodeRegionId (config_of props)
                    (strict_equals (get props "verbose") (VBool true));
         ScannerRender next (get props "qrCodeSuccessCallback")
                       (get props "qrCodeErrorCallback");
         ScannerClear next]
        ++ run_reaction (Reaction (clear next) log_clear_failure))
       (List.filter pending [Reaction (clear next) log_clear_failure])).
Proof.
  intros Hcb. unfold lifetime. rewrite mount_valid by exact Hcb.
  cbn [initial w_next w_clear w_trace w_jobs app].
  match goal with
  | |- context [updates _ ?fb later ?w] =>
      destruct (updates_skip_effect later fb w eq_refl eq_refl) as [el ->]
  end.
  cbn [fb_cleanup unmount]. rewrite release_run.
  unfold run_microtasks. cbn [w_next w_clear w_trace w_jobs app map concat].
  rewrite app_nil_r. reflexivity.
Qed.

(** The whole life of a mount whose effect throws, without further
    renders: nothing happens. *)
Lemma lifetime_invalid (props : object) (next : addr) (clear : addr -> settlement) :
  to_boolean (get props "qrCodeSuccessCallback") = false ->
  lifetime Html5QrcodePlugin props [] (initial next clear) =
    (Normal tt, initial next clear).
Proof.
  intros Hcb. unfold lifetime. rewrite mount_invalid by exact Hcb.
  reflexivity.
Qed.

Lemma container_props (props : object) :
  el_props (container props) =
    spread (literal [("id", VStr qrcodeRegionId)]) (rest_of props named_props).
Proof. reflexivity. Qed.

Lemma container_lookup (props : object) (k : string) :
  el_props (container props) !! k =
    match rest_of props named_props !! k with
    | Some v => Some v
    | None => if decide (k = "id") then Some (VStr qrcodeRegionId) else None
    end.
Proof.
  rewrite container_props. unfold spread, literal. cbn [foldl fst snd].
  rewrite lookup_union.
  destruct (rest_of props named_props !! k) as [v|] eqn:E.
  - destruct (<["id":=VStr qrcodeRegionId]> (∅ : object) !! k); reflexivity.
  - destruct (decide (k = "id")) as [->|Hne].
    + rewrite lookup_insert_eq. reflexivity.
    + rewrite lookup_insert_ne, lookup_empty by congruence. reflexivity.
Qed.

(** Without a passthrough [id], the container has the region identifier. *)
Lemma container_id_default (props : object) :
  props !! "id" = None -> carries_region_id props.
Proof.
  intros Hid. unfold carries_region_id.
  rewrite container_lookup, rest_of_lookup, Hid.
  destruct (decide ("id" ∈ named_props)); reflexivity.
Qed.

(** ** The claims *)

(** C1: for every mount whose success callback passes the check, however
    the props change afterwards, the trace of the whole mount is: one
    scanner construction, its start, then one release of that same
    scanner (followed only by a possible console line).  So exactly one
    scanner is created, exactly one release is attempted, the creation
    comes first, and the run is the same as with no re-render at all:
    the effect ran once. *)
Theorem C1_one_scanner_one_release (props : object) (later : list object)
    (next : addr) (clear : addr -> settlement) :
  valid props ->
  let run := lifetime Html5QrcodePlugin props later (initial next clear) in
  w_trace run.2 =
    [NewScanner next qrcodeRegionId (config_of props)
                (strict_equals (get props "verbose") (VBool true));
     ScannerRender next (get props "qrCodeSuccessCallback")
                   (get props "qrCodeErrorCallback");
     ScannerClear next]
    ++ run_reaction (Reaction (clear next) log_clear_failure)
  /\ length (constructed (w_trace run.2)) = 1
  /\ length (started (w_trace run.2)) = 1
  /\ released (w_trace run.2) = [next]
  /\ map (fun c => c.1.1.1) (constructed (w_trace run.2)) = [next]
  /\ run = lifetime Html5QrcodePlugin props [] (initial next clear).
Proof.
  intros Hcb run. subst run.
  rewrite !lifetime_valid by exact Hcb. cbn [snd w_trace].
  split; [reflexivity|].
  unfold run_reaction, log_clear_failure, console_error. cbn [rx_promise rx_onRejected].
  destruct (clear next); repeat split; reflexivity.
Qed.

Lemma C1_witness :
  valid (scenario 3) /\
  released
    (w_trace (lifetime Html5QrcodePlugin (scenario 3)
                [literal [("qrCodeSuccessCallback", VNull)]; scenario 4]
                (initial 0 (fun _ => Fulfills VUndefined))).2) = [0].
Proof.
  split; [reflexivity|].
  apply (C1_one_scanner_one_release (scenario 3)
           [literal [("qrCodeSuccessCallback", VNull)]; scenario 4]
           0 (fun _ => Fulfills VUndefined)).
  reflexivity.
Defined.

(** C2: when the props have no [qrCodeSuccessCallback], the effect throws
    the required-callback message from an unchanged world, so nothing
    was done before the throw; the mount, and the unmount and
    checkpoint that follow it, add no scanner construction and no
    scanner start to what the world already held. *)
Theorem C2_missing_callback_fails_first (props : object) (w : world) :
  props !! "qrCodeSuccessCallback" = None ->
  let m := mount Html5QrcodePlugin props w in
  let u := unmount m.1 m.2 in
  hk_effect (Html5QrcodePlugin props) w = (Throw (VStr required_message), w)
  /\ fb_error m.1 = Some (VStr required_message)
  /\ m.2 = w
  /\ constructed (w_trace m.2) = constructed (w_trace w)
  /\ started (w_trace m.2) = started (w_trace w)
  /\ constructed (w_trace u.2) = constructed (w_trace w)
  /\ started (w_trace u.2) = started (w_trace w)
  /\ constructed (w_trace (run_microtasks u.2)) = constructed (w_trace (run_microtasks w))
  /\ started (w_trace (run_microtasks u.2)) = started (w_trace (run_microtasks w)).
Proof.
  intros Hnone m u. subst u m.
  assert (Hcb : to_boolean (get props "qrCodeSuccessCallback") = false)
    by (rewrite get_lookup_None by exact Hnone; reflexivity).
  split; [apply effect_invalid; exact Hcb|].
  rewrite mount_invalid by exact Hcb. repeat split.
Qed.

Lemma C2_witness :
  (literal [("fps", number 10)] : object) !! "qrCodeSuccessCallback" = None /\
  constructed
    (w_trace (mount Html5QrcodePlugin (literal [("fps", number 10)])
                (initial 0 (fun _ => NeverSettles))).2) = [].
Proof.
  split; [reflexivity|].
  apply (C2_missing_callback_fails_first (literal [("fps", number 10)])
           (initial 0 (fun _ => NeverSettles))).
  reflexivity.
Defined.

(** C3: mounting with fps 10, qrbox 250 and a callback [cb] constructs the
    scanner on the region with the configuration
    {fps: 10, qrbox: 250, aspectRatio: undefined, disableFlip: undefined}
    and verbose false, starts it with (cb, undefined), and the unmount
    completes normally having called the release once. *)
Theorem C3_scenario (cb next : addr) (clear : addr -> settlement) :
  let m := mount Html5QrcodePlugin (scenario cb) (initial next clear) in
  let u := unmount m.1 m.2 in
  w_trace m.2 =
    [NewScanner next "html5qr-code-full-region"
       (literal [("fps", number 10); ("qrbox", number 250);
                 ("aspectRatio", VUndefined); ("disableFlip", VUndefined)])
       false;
     ScannerRender next (VFunction cb) VUndefined]
  /\ u.1 = Normal tt
  /\ w_trace u.2 = w_trace m.2 ++ [ScannerClear next]
  /\ released (w_trace u.2) = [next].
Proof.
  intros m u. subst u m.
  rewrite mount_valid by reflexivity.
  cbn [fst snd unmount fb_cleanup]. rewrite release_run.
  cbn [fst snd w_trace w_next initial app].
  repeat split; reflexivity.
Qed.

(** C4, as stated, fails: with only a success callback in the props, the
    configuration handed to the constructor still has the key [fps]
    (bound to undefined), so the unsupplied field is not omitted. *)
Lemma C4_counterexample :
  ~ omits_unsupplied (literal [("qrCodeSuccessCallback", VFunction 0)]).
Proof.
  intros H.
  specialize (H 0 (fun _ => NeverSettles) 0 qrcodeRegionId
                (config_of (literal [("qrCodeSuccessCallback", VFunction 0)]))
                false "fps" eq_refl).
  assert (Hin : "fps" ∈ scan_fields) by (unfold scan_fields; set_solver).
  specialize (H Hin eq_refl). discriminate H.
Qed.

(** C4, amended: at every mount that reaches the constructor, each of the
    four scan fields is a key of the configuration; its value is the
    caller's value when one was supplied and undefined when the field
    was not supplied, never another default. *)
Theorem C4_fields_present_undefined_when_unsupplied (props : object)
    (next : addr) (clear : addr -> settlement) :
  valid props ->
  exists cfg verbose,
    constructed (w_trace (mount Html5QrcodePlugin props (initial next clear)).2)
      = [(next, qrcodeRegionId, cfg, verbose)]
    /\ (forall k v, k ∈ scan_fields -> props !! k = Some v -> cfg !! k = Some v)
    /\ (forall k, k ∈ scan_fields -> props !! k = None -> cfg !! k = Some VUndefined).
Proof.
  intros Hcb. rewrite mount_valid by exact Hcb.
  eexists _, _. split; [reflexivity|].
  split.
  - intros k v Hk Hv. rewrite config_of_lookup, decide_True by exact Hk.
    rewrite (get_lookup_Some _ _ _ Hv). reflexivity.
  - intros k Hk Hn. rewrite config_of_lookup, decide_True by exact Hk.
    rewrite (get_lookup_None _ _ Hn). reflexivity.
Qed.

Lemma C4_witness :
  valid (scenario 0) /\
  exists cfg verbose,
    constructed
      (w_trace (mount Html5QrcodePlugin (scenario 0) (initial 5 (fun _ => NeverSettles))).2)
      = [(5, qrcodeRegionId, cfg, verbose)]
    /\ (forall k v, k ∈ scan_fields -> scenario 0 !! k = Some v -> cfg !! k = Some v)
    /\ (forall k, k ∈ scan_fields -> scenario 0 !! k = None -> cfg !! k = Some VUndefined).
Proof.
  split; [reflexivity|].
  apply (C4_fields_present_undefined_when_unsupplied (scenario 0) 5
           (fun _ => NeverSettles)).
  reflexivity.
Defined.

(** C5 at a failing input: with the passthrough prop id = "other", the
    container's [id] is "other" and not the region identifier, while
    the scanner is still constructed for the region identifier; with a
    passthrough id bound to undefined, the container's [id] is
    undefined. *)
Theorem C5_passthrough_id_replaces_region_id :
  let props := literal [("id", VStr "other"); ("qrCodeSuccessCallback", VFunction 0)] in
  let unset := literal [("id", VUndefined); ("qrCodeSuccessCallback", VFunction 0)] in
  el_props (container props) !! "id" = Some (VStr "other")
  /\ ~ carries_region_id props
  /\ map (fun c => c.1.1.2)
       (constructed
          (w_trace (mount Html5QrcodePlugin props (initial 0 (fun _ => NeverSettles))).2))
     = ["html5qr-code-full-region"]
  /\ el_props (container unset) !! "id" = Some VUndefined
  /\ ~ carries_region_id unset.
Proof.
  cbv zeta. unfold carries_region_id.
  repeat split; try reflexivity; intros H; vm_compute in H; discriminate H.
Qed.

(** C6: the verbose flag handed to the constructor is true exactly when
    the props bind [verbose] to the boolean true; in particular it is
    false for the string "true", for the number 1 and when the prop is
    absent. *)
Theorem C6_verbose_strict (props : object) (next : addr) (clear : addr -> settlement) :
  valid props ->
  exists cfg verbose,
    constructed (w_trace (mount Html5QrcodePlugin props (initial next clear)).2)
      = [(next, qrcodeRegionId, cfg, verbose)]
    /\ (verbose = true <-> props !! "verbose" = Some (VBool true))
    /\ (props !! "verbose" = Some (VStr "true") -> verbose = false)
    /\ (props !! "verbose" = Some (number 1) -> verbose = false)
    /\ (props !! "verbose" = None -> verbose = false).
Proof.
  intros Hcb. rewrite mount_valid by exact Hcb.
  eexists _, _. split; [reflexivity|].
  split; [|repeat split; intros E; unfold get; rewrite E; reflexivity].
  rewrite strict_equals_true. unfold get.
  destruct (props !! "verbose") as [v|]; simpl; split; congruence.
Qed.

Lemma C6_witness :
  valid (<["verbose" := VStr "true"]> (scenario 0)) /\
  exists cfg verbose,
    constructed
      (w_trace (mount Html5QrcodePlugin (<["verbose" := VStr "true"]> (scenario 0))
                  (initial 0 (fun _ => NeverSettles))).2)
      = [(0, qrcodeRegionId, cfg, verbose)]
    /\ (verbose = true <->
        <["verbose" := VStr "true"]> (scenario 0) !! "verbose" = Some (VBool true))
    /\ (<["verbose" := VStr "true"]> (scenario 0) !! "verbose" = Some (VStr "true") ->
        verbose = false)
    /\ (<["verbose" := VStr "true"]> (scenario 0) !! "verbose" = Some (number 1) ->
        verbose = false)
    /\ (<["verbose" := VStr "true"]> (scenario 0) !! "verbose" = None -> verbose = false).
Proof.
  split; [reflexivity|].
  apply (C6_verbose_strict (<["verbose" := VStr "true"]> (scenario 0)) 0
           (fun _ => NeverSettles)).
  reflexivity.
Defined.

(** C7: at every mount whose callback passes the check, if the promise
    returned by the release rejects, the unmount routine still
    completes normally (nothing is thrown) without having logged; the
    rejection handler then runs at the microtask checkpoint and writes
    one console line carrying the rejection reason, and no reaction is
    left pending. *)
Theorem C7_release_failure_logged (props : object) (later : list object)
    (next : addr) (clear : addr -> settlement) (reason : value) :
  valid props ->
  clear next = Rejects reason ->
  let m := mount Html5QrcodePlugin props (initial next clear) in
  let r := updates Html5QrcodePlugin m.1 later m.2 in
  let u := unmount r.1 r.2 in
  u.1 = Normal tt
  /\ released (w_trace u.2) = [next]
  /\ logged (w_trace u.2) = []
  /\ logged (w_trace (run_microtasks u.2)) = [[VStr clear_failed_message; reason]]
  /\ w_jobs (run_microtasks u.2) = []
  /\ (lifetime Html5QrcodePlugin props later (initial next clear)).1 = Normal tt.
Proof.
  intros Hcb Hrej m r u. subst u r m.
  rewrite lifetime_valid by exact Hcb.
  rewrite mount_valid by exact Hcb. cbn [fst snd].
  match goal with
  | |- context [updates _ ?fb later ?w] =>
      destruct (updates_skip_effect later fb w eq_refl eq_refl) as [el ->]
  end.
  cbn [fst snd fb_cleanup unmount]. rewrite release_run.
  unfold run_microtasks, run_reaction.
  cbn [fst snd initial w_next w_clear w_trace w_jobs app map concat
       rx_promise rx_onRejected].
  rewrite Hrej. repeat split; reflexivity.
Qed.

Lemma C7_witness :
  valid (scenario 0) /\
  (fun _ : addr => Rejects (VStr "camera busy")) 0 = Rejects (VStr "camera busy") /\
  (lifetime Html5QrcodePlugin (scenario 0) [scenario 1]
     (initial 0 (fun _ => Rejects (VStr "camera busy")))).1 = Normal tt.
Proof.
  split; [reflexivity|]. split; [reflexivity|].
  apply (C7_release_failure_logged (scenario 0) [scenario 1] 0
           (fun _ => Rejects (VStr "camera busy")) (VStr "camera busy"));
    reflexivity.
Defined.

(** C8: every prop other than the seven named ones is a property of the
    container with the value the caller gave, none of the seven named
    props is a property of the container, whatever the props are; and
    at a mount that reaches the constructor, the configuration handed
    to it has the four scan fields as its only keys, so no passthrough
    prop is in it. *)
Theorem C8_passthrough_frame (props : object) (next : addr)
    (clear : addr -> settlement) :
  (forall k v, k ∉ named_props -> props !! k = Some v ->
               el_props (container props) !! k = Some v)
  /\ (forall k, k ∈ named_props -> el_props (container props) !! k = None)
  /\ (valid props ->
      exists cfg verbose,
        constructed (w_trace (mount Html5QrcodePlugin props (initial next clear)).2)
          = [(next, qrcodeRegionId, cfg, verbose)]
        /\ (forall k, k ∉ named_props -> cfg !! k = None)
        /\ (forall k, is_Some (cfg !! k) <-> k ∈ scan_fields)).
Proof.
  split; [|split].
  - intros k v Hk Hv.
    rewrite container_lookup, rest_of_lookup, decide_False, Hv by exact Hk.
    reflexivity.
  - intros k Hk.
    rewrite container_lookup, rest_of_lookup, decide_True by exact Hk.
    rewrite decide_False; [reflexivity|].
    intros ->. revert Hk. unfold named_props. rewrite !elem_of_cons, elem_of_nil.
    intros H. repeat (destruct H as [H|H]; [discriminate H|]). exact H.
  - intros Hcb. rewrite mount_valid by exact Hcb. eexists _, _.
    split; [reflexivity|]. split.
    + intros k Hk. rewrite config_of_lookup, decide_False; [reflexivity|].
      intros Hin. apply Hk. revert Hin. unfold scan_fields, named_props.
      rewrite !elem_of_cons, !elem_of_nil. tauto.
    + intros k. rewrite config_of_lookup.
      destruct (decide (k ∈ scan_fields)) as [Hin|Hout]; split; intros H.
      * exact Hin.
      * eexists; reflexivity.
      * destruct H as [x Hx]; discriminate Hx.
      * contradiction.
Qed.

Lemma C8_witness :
  el_props (container (literal [("className", VStr "scanner")])) !! "className"
    = Some (VStr "scanner")
  /\ valid (<["className" := VStr "scanner"]> (scenario 0))
  /\ exists cfg verbose,
       constructed
         (w_trace (mount Html5QrcodePlugin (<["className" := VStr "scanner"]> (scenario 0))
                     (initial 0 (fun _ => NeverSettles))).2)
       = [(0, qrcodeRegionId, cfg, verbose)]
       /\ (forall k, k ∉ named_props -> cfg !! k = None)
       /\ (forall k, is_Some (cfg !! k) <-> k ∈ scan_fields).
Proof.
  split; [|split; [reflexivity|]].
  - apply (C8_passthrough_frame (literal [("className", VStr "scanner")]) 0
             (fun _ => NeverSettles)); [|reflexivity].
    unfold named_props. rewrite !elem_of_cons, elem_of_nil.
    intros H. repeat (destruct H as [H|H]; [discriminate H|]). exact H.
  - apply (C8_passthrough_frame (<["className" := VStr "scanner"]> (scenario 0)) 0
             (fun _ => NeverSettles)).
    reflexivity.
Defined.

(** C9: when the props bind [qrCodeSuccessCallback] to a falsy value
    (null, false, 0, the empty string and the other falsy values), the
    effect throws the required-callback message from an unchanged
    world, and the mount is the same, fiber and world, as the mount of
    the props without that key. *)
Theorem C9_falsy_callback_rejected (props : object) (v : value) (w : world) :
  props !! "qrCodeSuccessCallback" = Some v ->
  to_boolean v = false ->
  hk_effect (Html5QrcodePlugin props) w = (Throw (VStr required_message), w)
  /\ mount Html5QrcodePlugin props w =
       mount Html5QrcodePlugin (delete "qrCodeSuccessCallback" props) w
  /\ In v [VNull; VBool false; number 0; VStr ""; VUndefined; VBigInt 0;
           VNum S754_nan; VNum (S754_zero true)].
Proof.
  intros Hv Hf.
  assert (Hcb : to_boolean (get props "qrCodeSuccessCallback") = false)
    by (rewrite (get_lookup_Some _ _ _ Hv); exact Hf).
  assert (Hcb' : to_boolean (get (delete "qrCodeSuccessCallback" props)
                               "qrCodeSuccessCallback") = false)
    by (unfold get; rewrite lookup_delete_eq; reflexivity).
  split; [apply effect_invalid; exact Hcb|]. split.
  - rewrite !mount_invalid by assumption. reflexivity.
  - clear -Hf. destruct v as [| |[|]|[[|]| | |]|z|s| | |]; simpl in *;
      try discriminate Hf; auto 10.
    + apply negb_false_iff, Z.eqb_eq in Hf. subst z. auto 10.
    + apply negb_false_iff, String.eqb_eq in Hf. subst s. auto 10.
Qed.

Lemma C9_witness :
  (literal [("qrCodeSuccessCallback", number 0)] : object) !! "qrCodeSuccessCallback"
    = Some (number 0) /\
  to_boolean (number 0) = false /\
  hk_effect (Html5QrcodePlugin (literal [("qrCodeSuccessCallback", number 0)]))
            (initial 0 (fun _ => NeverSettles))
    = (Throw (VStr required_message), initial 0 (fun _ => NeverSettles)).
Proof.
  split; [reflexivity|]. split; [reflexivity|].
  apply (C9_falsy_callback_rejected (literal [("qrCodeSuccessCallback", number 0)])
           (number 0) (initial 0 (fun _ => NeverSettles)));
    reflexivity.
Defined.

(** C10: when the effect fails the success-callback check, the mount
    leaves the world as it was and the instance holds no cleanup;
    unmounting it, in any world, completes normally and leaves that
    world as it was, so no release and no console line; the mount
    followed by the unmount and the checkpoint ends in the world it
    started from. *)
Theorem C10_failed_activation_no_teardown (props : object) (w : world)
    (next : addr) (clear : addr -> settlement) :
  to_boolean (get props "qrCodeSuccessCallback") = false ->
  let m := mount Html5QrcodePlugin props w in
  fb_cleanup m.1 = None
  /\ m.2 = w
  /\ (forall w', unmount m.1 w' = (Normal tt, w'))
  /\ (forall w', released (w_trace (unmount m.1 w').2) = released (w_trace w')
                 /\ logged (w_trace (unmount m.1 w').2) = logged (w_trace w'))
  /\ lifetime Html5QrcodePlugin props [] (initial next clear)
     = (Normal tt, initial next clear).
Proof.
  intros Hcb m. subst m.
  rewrite lifetime_invalid by exact Hcb.
  rewrite mount_invalid by exact Hcb. cbn [fst snd fb_cleanup].
  repeat split.
Qed.

Lemma C10_witness :
  to_boolean (get (literal [("fps", number 10)]) "qrCodeSuccessCallback") = false /\
  lifetime Html5QrcodePlugin (literal [("fps", number 10)]) []
    (initial 0 (fun _ => Rejects VNull))
  = (Normal tt, initial 0 (fun _ => Rejects VNull)).
Proof.
  split; [reflexivity|].
  apply (C10_failed_activation_no_teardown (literal [("fps", number 10)])
           (initial 0 (fun _ => Rejects VNull)) 0 (fun _ => Rejects VNull)).
  reflexivity.
Defined.

(** ** Further properties of the component *)

Lemma named_props_elem (k : string) :
  k ∈ named_props <->
  k = "fps" \/ k = "qrbox" \/ k = "aspectRatio" \/ k = "disableFlip" \/
  k = "verbose" \/ k = "qrCodeSuccessCallback" \/ k = "qrCodeErrorCallback".
Proof. unfold named_props. rewrite !elem_of_cons, elem_of_nil. tauto. Qed.

Lemma id_not_named : "id" ∉ named_props.
Proof.
  rewrite named_props_elem. intros H.
  repeat (destruct H as [H|H]; [discriminate H|]). discriminate H.
Qed.

Lemma rest_of_insert_named (o : object) (named : list string) (k : string) (v : value) :
  k ∈ named -> rest_of (<[k:=v]> o) named = rest_of o named.
Proof.
  intros Hk. apply map_eq. intros j. rewrite !rest_of_lookup.
  destruct (decide (j ∈ named)) as [Hj|Hj]; [reflexivity|].
  apply lookup_insert_ne. intros ->. contradiction.
Qed.

Lemma get_insert_ne (o : object) (j k : string) (v : value) :
  j <> k -> get (<[j:=v]> o) k = get o k.
Proof. intros Hne. unfold get. rewrite lookup_insert_ne by exact Hne. reflexivity. Qed.

(** The effect reads the props only through the seven named keys. *)
Lemma plugin_effect_ext (props props' : object) :
  (forall k, k ∈ named_props -> get props k = get props' k) ->
  hk_effect (Html5QrcodePlugin props) = hk_effect (Html5QrcodePlugin props').
Proof.
  intros H. unfold Html5QrcodePlugin. cbn [hk_effect].
  rewrite !binding_undefined.
  rewrite (H "fps"), (H "qrbox"), (H "aspectRatio"), (H "disableFlip"),
    (H "verbose"), (H "qrCodeSuccessCallback"), (H "qrCodeErrorCallback")
    by (apply named_props_elem; tauto).
  reflexivity.
Qed.

(** The element reads the props only through the rest object. *)
Lemma container_ext (props props' : object) :
  rest_of props named_props = rest_of props' named_props ->
  container props = container props'.
Proof.
  intros H. unfold container, Html5QrcodePlugin. cbn [rd_element].
  rewrite H. reflexivity.
Qed.

Lemma mount_ext (props props' : object) (w : world) :
  (forall k, k ∈ named_props -> get props k = get props' k) ->
  rest_of props named_props = rest_of props' named_props ->
  mount Html5QrcodePlugin props w = mount Html5QrcodePlugin props' w.
Proof.
  intros Hg Hr. unfold mount, run_effect.
  rewrite (plugin_effect_ext props props' Hg).
  change (rd_element (Html5QrcodePlugin props)) with (container props).
  change (rd_element (Html5QrcodePlugin props')) with (container props').
  rewrite (container_ext props props' Hr). reflexivity.
Qed.

(** A reaction left registered by the checkpoint has nothing to run. *)
Lemma pending_silent (js : list reaction) :
  concat (map run_reaction (List.filter pending js)) = [].
Proof.
  induction js as [|j js IH]; [reflexivity|].
  cbn [List.filter]. destruct (pending j) eqn:Hp; [|exact IH].
  cbn [map concat]. rewrite IH, app_nil_r.
  unfold pending in Hp. unfold run_reaction.
  destruct (rx_promise j); [reflexivity|discriminate Hp|discriminate Hp].
Qed.

(** The whole life of a valid mount, from any world. *)
Lemma lifetime_valid_from (props : object) (later : list object) (w : world) :
  valid props ->
  lifetime Html5QrcodePlugin props later w =
    (Normal tt,
     World (S (w_next w)) (w_clear w)
       (w_trace w ++
        [NewScanner (w_next w) qrcodeRegionId (config_of props)
                    (strict_equals (get props "verbose") (VBool true));
         ScannerRender (w_next w) (get props "qrCodeSuccessCallback")
                       (get props "qrCodeErrorCallback");
         ScannerClear (w_next w)]
        ++ concat (map run_reaction (w_jobs w))
        ++ run_reaction (Reaction (w_clear w (w_next w)) log_clear_failure))
       (List.filter pending
          (w_jobs w ++ [Reaction (w_clear w (w_next w)) log_clear_failure]))).
Proof.
  intros Hcb. unfold lifetime. rewrite mount_valid by exact Hcb.
  match goal with
  | |- context [updates _ ?fb later ?w0] =>
      destruct (updates_skip_effect later fb w0 eq_refl eq_refl) as [el ->]
  end.
  cbn [fb_cleanup unmount]. rewrite release_run.
  unfold run_microtasks. cbn [w_next w_clear w_trace w_jobs].
  rewrite map_app, concat_app. cbn [map concat]. rewrite app_nil_r.
  rewrite <- !app_assoc. reflexivity.
Qed.

(** X1: at a mount whose success callback passes the check, the effect
    does not throw and starts the scanner once, with the caller's
    success callback as given and with the error callback as given, or
    undefined when the props have none; the error callback is not
    checked. *)
Theorem X1_callbacks_forwarded (props : object) (next : addr)
    (clear : addr -> settlement) :
  valid props ->
  let m := mount Html5QrcodePlugin props (initial next clear) in
  fb_error m.1 = None
  /\ exists cb,
       props !! "qrCodeSuccessCallback" = Some cb
       /\ to_boolean cb = true
       /\ started (w_trace m.2) =
            [(next, cb,
              match props !! "qrCodeErrorCallback" with
              | Some f => f
              | None => VUndefined
              end)].
Proof.
  intros Hcb m. subst m. rewrite mount_valid by exact Hcb.
  split; [reflexivity|].
  unfold valid, get in Hcb.
  destruct (props !! "qrCodeSuccessCallback") as [cb|] eqn:E;
    [|discriminate Hcb].
  exists cb. split; [reflexivity|]. split; [exact Hcb|].
  unfold get. rewrite E. cbn.
  destruct (props !! "qrCodeErrorCallback"); reflexivity.
Qed.

Lemma X1_witness :
  valid (literal [("qrCodeSuccessCallback", VStr "not a function");
                  ("qrCodeErrorCallback", VNull)]) /\
  fb_error
    (mount Html5QrcodePlugin
       (literal [("qrCodeSuccessCallback", VStr "not a function");
                 ("qrCodeErrorCallback", VNull)])
       (initial 0 (fun _ => NeverSettles))).1 = None.
Proof.
  split; [reflexivity|].
  apply (X1_callbacks_forwarded
           (literal [("qrCodeSuccessCallback", VStr "not a function");
                     ("qrCodeErrorCallback", VNull)])
           0 (fun _ => NeverSettles)).
  reflexivity.
Defined.

(** X2: binding one of the seven named props to undefined is the same as
    leaving it out: the mount gives the same instance and the same
    world. *)
Theorem X2_undefined_is_absent (props : object) (k : string) (w : world) :
  k ∈ named_props ->
  mount Html5QrcodePlugin (<[k := VUndefined]> props) w =
    mount Html5QrcodePlugin (delete k props) w.
Proof.
  intros Hk. apply mount_ext.
  - intros j _. destruct (decide (k = j)) as [->|Hne].
    + unfold get. rewrite lookup_insert_eq, lookup_delete_eq. reflexivity.
    + rewrite get_insert_ne, get_delete_ne by exact Hne. reflexivity.
  - rewrite rest_of_insert_named, rest_of_delete_named by exact Hk. reflexivity.
Qed.

Lemma X2_witness :
  "fps" ∈ named_props /\
  mount Html5QrcodePlugin (<["fps" := VUndefined]> (scenario 0))
        (initial 0 (fun _ => NeverSettles)) =
    mount Html5QrcodePlugin (delete "fps" (scenario 0))
          (initial 0 (fun _ => NeverSettles)).
Proof.
  assert (H : "fps" ∈ named_props) by (apply named_props_elem; tauto).
  split; [exact H|].
  apply (X2_undefined_is_absent (scenario 0) "fps"
           (initial 0 (fun _ => NeverSettles)) H).
Defined.

(** X3: the container carries the region identifier exactly when the
    props have no [id] or have [id] bound to that very string. *)
Theorem X3_region_id_iff (props : object) :
  carries_region_id props <->
  props !! "id" = None \/ props !! "id" = Some (VStr qrcodeRegionId).
Proof.
  unfold carries_region_id.
  rewrite container_lookup, rest_of_lookup, decide_False by exact id_not_named.
  destruct (props !! "id") as [v|].
  - split; [intros H; right; exact H|intros [H|H]; [discriminate H|exact H]].
  - rewrite decide_True by reflexivity. split; [intros _; left|]; reflexivity.
Qed.

(** X4: at a mount whose success callback passes the check, a re-render
    shows the container of the newest props while the scanner side
    stays as the mount left it: after any re-renders ending with [p],
    the instance holds the container of [p] and the cleanup of the
    mount, no error, and the world is untouched. *)
Theorem X4_rerender_updates_container_only (props : object) (later : list object)
    (p : object) (w w' : world) :
  valid props ->
  let m := mount Html5QrcodePlugin props w in
  let r := updates Html5QrcodePlugin m.1 (later ++ [p]) w' in
  fb_element r.1 = Some (container p)
  /\ fb_cleanup r.1 = fb_cleanup m.1
  /\ fb_cleanup r.1 = Some (release (w_next w))
  /\ fb_error r.1 = None
  /\ r.2 = w'.
Proof.
  intros Hcb m r. subst r m. rewrite mount_valid by exact Hcb. cbn [fst snd].
  unfold updates. rewrite foldl_app. cbn [foldl].
  match goal with
  | |- context [foldl _ (?fb, ?w0) later] =>
      destruct (updates_skip_effect later fb w0 eq_refl eq_refl) as [el Hel]
  end.
  unfold updates in Hel. rewrite Hel. cbn [fst snd].
  rewrite update_skips_effect by reflexivity.
  repeat split.
Qed.

Lemma X4_witness :
  valid (scenario 0) /\
  fb_element
    (updates Html5QrcodePlugin
       (mount Html5QrcodePlugin (scenario 0) (initial 0 (fun _ => NeverSettles))).1
       ([literal [("className", VStr "a")]] ++ [literal [("className", VStr "b")]])
       (initial 5 (fun _ => NeverSettles))).1
  = Some (container (literal [("className", VStr "b")])).
Proof.
  split; [reflexivity|].
  apply (X4_rerender_updates_container_only (scenario 0)
           [literal [("className", VStr "a")]] (literal [("className", VStr "b")])
           (initial 0 (fun _ => NeverSettles)) (initial 5 (fun _ => NeverSettles))).
  reflexivity.
Defined.

(** X5: a prop outside the seven named ones has no influence on what is
    done to the scanner: setting or removing it leaves the effect's
    completion and the world after the mount the same. *)
Theorem X5_passthrough_does_not_reach_scanner (props : object) (k : string)
    (v : value) (w : world) :
  k ∉ named_props ->
  hk_effect (Html5QrcodePlugin (<[k := v]> props)) w =
    hk_effect (Html5QrcodePlugin props) w
  /\ hk_effect (Html5QrcodePlugin (delete k props)) w =
       hk_effect (Html5QrcodePlugin props) w
  /\ (mount Html5QrcodePlugin (<[k := v]> props) w).2 =
       (mount Html5QrcodePlugin props w).2.
Proof.
  intros Hk.
  assert (Hi : hk_effect (Html5QrcodePlugin (<[k := v]> props)) =
               hk_effect (Html5QrcodePlugin props)).
  { apply plugin_effect_ext. intros j Hj. apply get_insert_ne.
    intros ->. contradiction. }
  assert (Hd : hk_effect (Html5QrcodePlugin (delete k props)) =
               hk_effect (Html5QrcodePlugin props)).
  { apply plugin_effect_ext. intros j Hj. apply get_delete_ne.
    intros ->. contradiction. }
  split; [rewrite Hi; reflexivity|]. split; [rewrite Hd; reflexivity|].
  unfold mount, run_effect. rewrite Hi.
  destruct (hk_effect (Html5QrcodePlugin props) w) as [[c|e] w1]; reflexivity.
Qed.

Lemma X5_witness :
  ("className" ∉ named_props) /\
  (mount Html5QrcodePlugin (<["className" := VStr "cam"]> (scenario 0))
         (initial 0 (fun _ => NeverSettles))).2 =
    (mount Html5QrcodePlugin (scenario 0) (initial 0 (fun _ => NeverSettles))).2.
Proof.
  assert (H : "className" ∉ named_props).
  { rewrite named_props_elem. intros H.
    repeat (destruct H as [H|H]; [discriminate H|]). discriminate H. }
  split; [exact H|].
  apply (X5_passthrough_does_not_reach_scanner (scenario 0) "className"
           (VStr "cam") (initial 0 (fun _ => NeverSettles)) H).
Defined.

(** X6: none of the seven named props reaches the rendered element:
    setting or removing one leaves the container the same. *)
Theorem X6_named_props_do_not_reach_container (props : object) (k : string)
    (v : value) :
  k ∈ named_props ->
  container (<[k := v]> props) = container props
  /\ container (delete k props) = container props.
Proof.
  intros Hk. split; apply container_ext.
  - apply rest_of_insert_named. exact Hk.
  - apply rest_of_delete_named. exact Hk.
Qed.

Lemma X6_witness :
  "verbose" ∈ named_props /\
  container (<["verbose" := VBool true]> (scenario 0)) = container (scenario 0).
Proof.
  assert (H : "verbose" ∈ named_props) by (apply named_props_elem; tauto).
  split; [exact H|].
  apply (X6_named_props_do_not_reach_container (scenario 0) "verbose" (VBool true) H).
Defined.



(** X8: two valid instances mounted side by side get two distinct
    scanners, both constructed for the same region identifier; each
    cleanup releases the scanner of its own instance, in whichever
    order the two are unmounted, and both unmounts complete normally. *)
Theorem X8_two_instances (p1 p2 : object) (w : world) :
  valid p1 ->
  valid p2 ->
  let m1 := mount Html5QrcodePlugin p1 w in
  let m2 := mount Html5QrcodePlugin p2 m1.2 in
  let a := unmount m1.1 m2.2 in
  let b := unmount m2.1 m2.2 in
  map (fun c => (c.1.1.1, c.1.1.2)) (constructed (w_trace m2.2)) =
    map (fun c => (c.1.1.1, c.1.1.2)) (constructed (w_trace w))
    ++ [(w_next w, qrcodeRegionId); (S (w_next w), qrcodeRegionId)]
  /\ a.1 = Normal tt
  /\ w_trace a.2 = w_trace m2.2 ++ [ScannerClear (w_next w)]
  /\ b.1 = Normal tt
  /\ w_trace b.2 = w_trace m2.2 ++ [ScannerClear (S (w_next w))]
  /\ w_trace (unmount m2.1 a.2).2 =
       w_trace m2.2 ++ [ScannerClear (w_next w); ScannerClear (S (w_next w))]
  /\ w_trace (unmount m1.1 b.2).2 =
       w_trace m2.2 ++ [ScannerClear (S (w_next w)); ScannerClear (w_next w)].
Proof.
  intros H1 H2 m1 m2 a b. subst b a m2 m1.
  rewrite (mount_valid p1 w H1). cbn [fst snd].
  rewrite (mount_valid p2 _ H2). cbn [fst snd unmount fb_cleanup w_next w_trace].
  rewrite !release_run. cbn [fst snd w_trace].
  split.
  - unfold constructed. rewrite !omap_app, !map_app.
    rewrite <- (assoc_L (++)). reflexivity.
  - rewrite <- !app_assoc. repeat split.
Qed.

Lemma X8_witness :
  valid (scenario 0) /\ valid (scenario 1) /\
  w_trace
    (unmount (mount Html5QrcodePlugin (scenario 0) (initial 0 (fun _ => NeverSettles))).1
       (mount Html5QrcodePlugin (scenario 1)
          (mount Html5QrcodePlugin (scenario 0) (initial 0 (fun _ => NeverSettles))).2).2).2
  = w_trace
      (mount Html5QrcodePlugin (scenario 1)
         (mount Html5QrcodePlugin (scenario 0) (initial 0 (fun _ => NeverSettles))).2).2
    ++ [ScannerClear 0].
Proof.
  split; [reflexivity|]. split; [reflexivity|].
  apply (X8_two_instances (scenario 0) (scenario 1) (initial 0 (fun _ => NeverSettles)));
    reflexivity.
Defined.

(** X9: mounting again after an unmount makes a new scanner: over two
    valid mounts in a row the first scanner is constructed, started and
    released before the second is constructed, the second handle is
    fresh, and the first handle is not touched again. *)
Theorem X9_remount_makes_new_scanner (p1 p2 : object) (l1 l2 : list object)
    (next : addr) (clear : addr -> settlement) :
  valid p1 ->
  valid p2 ->
  let r1 := lifetime Html5QrcodePlugin p1 l1 (initial next clear) in
  let r2 := lifetime Html5QrcodePlugin p2 l2 r1.2 in
  w_trace r2.2 =
    [NewScanner next qrcodeRegionId (config_of p1)
                (strict_equals (get p1 "verbose") (VBool true));
     ScannerRender next (get p1 "qrCodeSuccessCallback") (get p1 "qrCodeErrorCallback");
     ScannerClear next]
    ++ run_reaction (Reaction (clear next) log_clear_failure)
    ++ [NewScanner (S next) qrcodeRegionId (config_of p2)
                   (strict_equals (get p2 "verbose") (VBool true));
        ScannerRender (S next) (get p2 "qrCodeSuccessCallback")
                      (get p2 "qrCodeErrorCallback");
        ScannerClear (S next)]
    ++ run_reaction (Reaction (clear (S next)) log_clear_failure)
  /\ released (w_trace r2.2) = [next; S next]
  /\ r2.1 = Normal tt.
Proof.
  intros H1 H2 r1 r2. subst r2 r1.
  rewrite (lifetime_valid p1 l1 next clear H1). cbn [snd].
  rewrite (lifetime_valid_from p2 l2 _ H2).
  cbn [fst snd w_trace w_next w_clear w_jobs]. rewrite pending_silent.
  split; [|split; [|reflexivity]].
  - cbn [app]. reflexivity.
  - unfold run_reaction, log_clear_failure, console_error.
    cbn [rx_promise rx_onRejected].
    destruct (clear next), (clear (S next)); reflexivity.
Qed.

Lemma X9_witness :
  valid (scenario 0) /\ valid (scenario 1) /\
  released
    (w_trace
       (lifetime Html5QrcodePlugin (scenario 1) []
          (lifetime Html5QrcodePlugin (scenario 0) []
             (initial 0 (fun _ => Rejects VNull))).2).2) = [0; 1].
Proof.
  split; [reflexivity|]. split; [reflexivity|].
  apply (X9_remount_makes_new_scanner (scenario 0) (scenario 1) [] []
           0 (fun _ => Rejects VNull));
    reflexivity.
Defined.

(** X10: the component returns a [div] whose properties are the region
    identifier and the passthrough props, nothing else: a key is a
    property of the container exactly when it is [id] or it is a key of
    the props outside the seven named ones. *)
Theorem X10_container_properties (props : object) (k : string) :
  el_type (container props) = "div"
  /\ (is_Some (el_props (container props) !! k) <->
      k = "id" \/ ((k ∉ named_props) /\ is_Some (props !! k))).
Proof.
  split; [reflexivity|].
  rewrite container_lookup, rest_of_lookup.
  destruct (decide (k ∈ named_props)) as [Hn|Hn].
  - rewrite decide_False by (intros ->; exact (id_not_named Hn)).
    split.
    + intros [x Hx]. discriminate Hx.
    + intros [->|[H _]]; [destruct (id_not_named Hn)|contradiction].
  - destruct (props !! k) as [v|] eqn:E.
    + split; [intros _; right; split; [exact Hn|eexists; reflexivity]|].
      intros _. eexists; reflexivity.
    + destruct (decide (k = "id")) as [->|Hid].
      * split; [intros _; left; reflexivity|intros _; eexists; reflexivity].
      * split; [intros [x Hx]; discriminate Hx|].
        intros [H|[_ [x Hx]]]; [contradiction|discriminate Hx].
Qed.
